(** * result_py: the packaging manifest [setup.py]

    The repository consists of one Python script, [setup.py], whose only
    action is a call of distutils' [setup] with ten keyword arguments.

    The development has four layers, each linked to the previous one by a
    lemma:
    - [source_lines] / [source]: the text of [setup.py], line by line;
    - [lex]: a tokenizer for the part of Python's lexical grammar the
      script uses (names, string literals, brackets, comments, logical
      line ends), every token carrying its offsets in the text;
    - [parse]: a recursive-descent parser into a small statement syntax;
    - [run]: an evaluator that threads the global name space through the
      statements, resolves imports against the modules the environment
      has, and records the calls of imported functions. *)

From Stdlib Require Import String Ascii List Bool Arith Lia.
Import ListNotations.
Open Scope string_scope.
Open Scope list_scope.
Set Warnings "-register-all".

(** ** The source text *)

Definition LF : ascii := ascii_of_nat 10.
Definition nl : string := String LF EmptyString.

(** [setup.py], one entry per line.  The last line carries no line
    terminator in the file. *)
Definition source_lines : list string :=
  [ "'''setup.py"
  ; "'''"
  ; EmptyString
  ; "from distutils.core import setup"
  ; EmptyString
  ; "setup("
  ; "  name = 'result_py',"
  ; "  packages = ['result_py'],"
  ; "  version = '0.1.0',"
  ; "  description = 'A Result type much like Rust\'s, featuring generics and lovely combinators.',"
  ; "  author = 'Zack Mullaly',"
  ; "  author_email = 'zsck@riseup.net',"
  ; "  url = 'https://github.com/zsck/result_py', # use the URL to the github repo"
  ; "  download_url = 'https://github.com/peterldowns/mypackage/archive/0.1.tar.gz', # I'll explain this in a second"
  ; "  keywords = ['rust', 'result', 'generics', 'type hinting'], # arbitrary keywords"
  ; "  classifiers = ["
  ; "    'Programming Language :: Python :: 3.5',"
  ; "    'Programming Language :: Python :: 3.6',"
  ; "    'Programming Language :: Python :: 3.7',"
  ; "  ],"
  ; ")"
  ].

Definition source : string := String.concat nl source_lines.

(** ** Strings as character lists *)

Definition chars (s : string) : list ascii := list_ascii_of_string s.
Definition text (cs : list ascii) : string := string_of_list_ascii cs.

(** [split_on sep s]: the pieces of [s] between occurrences of [sep]
    (Python's [s.split(sep)] for a one-character separator). *)
Fixpoint split_chars (sep : ascii) (cs : list ascii) : list (list ascii) :=
  match cs with
  | [] => [[]]
  | c :: cs' =>
      if Ascii.eqb c sep then [] :: split_chars sep cs'
      else match split_chars sep cs' with
           | [] => [[c]]
           | p :: ps => (c :: p) :: ps
           end
  end.

Definition split_on (sep : ascii) (s : string) : list string :=
  map text (split_chars sep (chars s)).

(** Python's [str.splitlines] for LF line ends: a final line terminator
    does not open a further, empty line. *)
Definition splitlines (s : string) : list string :=
  match rev (split_on LF s) with
  | EmptyString :: r => rev r
  | _ => split_on LF s
  end.

Definition count_char (c : ascii) (s : string) : nat :=
  length (filter (Ascii.eqb c) (chars s)).

(** Offsets at which [pat] occurs in [s], the first character of [s]
    being at offset [pos]. *)
Fixpoint occurrences_from (pat s : string) (pos : nat) : list nat :=
  match s with
  | EmptyString => []
  | String _ s' =>
      (if String.prefix pat s then [pos] else [])
        ++ occurrences_from pat s' (S pos)
  end.

Definition occurrences (pat s : string) : list nat := occurrences_from pat s 0.

(** ** Tokens *)

Inductive op := LPar | RPar | LBrack | RBrack | Comma | Assign | Dot.

Inductive token :=
| TName (x : string)
| TStr (s : string)
| TOp (o : op)
| TNewline.

(** A token with the half-open range [start, stop) of offsets it covers. *)
Record ptoken := PTok { tok : token; start : nat; stop : nat }.

Definition in_range (lo hi : nat) (c : ascii) : bool :=
  let n := nat_of_ascii c in (lo <=? n)%nat && (n <=? hi)%nat.

Definition is_digit (c : ascii) : bool := in_range 48 57 c.
Definition is_name_start (c : ascii) : bool :=
  in_range 65 90 c || in_range 97 122 c || Ascii.eqb c "_".
Definition is_name_char (c : ascii) : bool := is_name_start c || is_digit c.
Definition is_blank (c : ascii) : bool :=
  Ascii.eqb c " " || Ascii.eqb c (ascii_of_nat 9) || Ascii.eqb c (ascii_of_nat 13).
Definition is_quote (c : ascii) : bool :=
  Ascii.eqb c "'" || Ascii.eqb c (ascii_of_nat 34).
Definition backslash : ascii := ascii_of_nat 92.

Definition op_of_char (c : ascii) : option op :=
  if Ascii.eqb c "(" then Some LPar
  else if Ascii.eqb c ")" then Some RPar
  else if Ascii.eqb c "[" then Some LBrack
  else if Ascii.eqb c "]" then Some RBrack
  else if Ascii.eqb c "," then Some Comma
  else if Ascii.eqb c "=" then Some Assign
  else if Ascii.eqb c "." then Some Dot
  else None.

(** Longest prefix whose characters satisfy [p], and the rest. *)
Fixpoint span (p : ascii -> bool) (cs : list ascii) : list ascii * list ascii :=
  match cs with
  | c :: cs' =>
      if p c then let (a, b) := span p cs' in (c :: a, b) else ([], cs)
  | [] => ([], [])
  end.

(** The characters an escape sequence [\d] stands for; an unrecognised
    escape keeps its backslash. *)
Definition unescape (d : ascii) : list ascii :=
  if Ascii.eqb d "'" || Ascii.eqb d (ascii_of_nat 34) || Ascii.eqb d backslash
  then [d]
  else if Ascii.eqb d "n" then [LF]
  else if Ascii.eqb d "t" then [ascii_of_nat 9]
  else [backslash; d].

(** Body of a string literal opened by one quote [q]: the decoded
    characters and what follows the closing quote.  A line end or the end
    of the text before the closing quote is an error. *)
Fixpoint scan_short (q : ascii) (cs : list ascii) : option (list ascii * list ascii) :=
  match cs with
  | [] => None
  | c :: cs' =>
      if Ascii.eqb c q then Some ([], cs')
      else if Ascii.eqb c LF then None
      else if Ascii.eqb c backslash then
        match cs' with
        | [] => None
        | d :: cs'' =>
            match scan_short q cs'' with
            | Some (body, rest) => Some (unescape d ++ body, rest)
            | None => None
            end
        end
      else
        match scan_short q cs' with
        | Some (body, rest) => Some (c :: body, rest)
        | None => None
        end
  end.

(** Body of a string literal opened by three quotes; line ends belong to
    the body. *)
Fixpoint scan_long (q : ascii) (cs : list ascii) : option (list ascii * list ascii) :=
  match cs with
  | [] => None
  | c :: cs' =>
      match cs' with
      | c2 :: c3 :: rest =>
          if Ascii.eqb c q && Ascii.eqb c2 q && Ascii.eqb c3 q
          then Some ([], rest)
          else match scan_long q cs' with
               | Some (body, r) => Some (c :: body, r)
               | None => None
               end
      | _ => None
      end
  end.

Definition consumed (before after : list ascii) : nat :=
  length before - length after.

Definition emit (t : token) (a b : nat) (r : option (list ptoken)) : option (list ptoken) :=
  match r with
  | Some ts => Some (PTok t a b :: ts)
  | None => None
  end.

(** The tokenizer.  [pos] is the offset of the head of [cs]; [depth]
    counts the open brackets, inside which line ends are not tokens.
    Every step consumes at least one character, so [fuel] above the
    length of the text never runs out. *)
Fixpoint lex (fuel pos depth : nat) (cs : list ascii) : option (list ptoken) :=
  match fuel with
  | 0 => None
  | S fuel' =>
      match cs with
      | [] => Some []
      | c :: cs' =>
          if is_blank c then lex fuel' (S pos) depth cs'
          else if Ascii.eqb c LF then
            if (depth =? 0)%nat
            then emit TNewline pos (S pos) (lex fuel' (S pos) depth cs')
            else lex fuel' (S pos) depth cs'
          else if Ascii.eqb c "#" then
            let rest := snd (span (fun d => negb (Ascii.eqb d LF)) cs) in
            lex fuel' (pos + consumed cs rest) depth rest
          else if is_quote c then
            let scanned :=
              match cs' with
              | c2 :: c3 :: cs3 =>
                  if Ascii.eqb c2 c && Ascii.eqb c3 c
                  then scan_long c cs3 else scan_short c cs'
              | _ => scan_short c cs'
              end in
            match scanned with
            | Some (body, rest) =>
                let pos' := pos + consumed cs rest in
                emit (TStr (text body)) pos pos' (lex fuel' pos' depth rest)
            | None => None
            end
          else if is_name_start c then
            let (nm, rest) := span is_name_char cs in
            let pos' := pos + consumed cs rest in
            emit (TName (text nm)) pos pos' (lex fuel' pos' depth rest)
          else
            match op_of_char c with
            | Some o =>
                let depth' :=
                  match o with
                  | LPar | LBrack => S depth
                  | RPar | RBrack => pred depth
                  | _ => depth
                  end in
                emit (TOp o) pos (S pos) (lex fuel' (S pos) depth' cs')
            | None => None
            end
      end
  end.

Definition tokenize (s : string) : option (list ptoken) :=
  lex (S (String.length s)) 0 0 (chars s).

Definition tokens_of (s : string) : option (list token) :=
  option_map (map tok) (tokenize s).

(** ** Syntax *)

Inductive expr :=
| EStr (s : string)
| EName (x : string)
| EList (es : list expr).

(** The statements of a script of this kind: an expression statement
    made of a string literal (a docstring), [from m import x, ...], and a
    call [f(k = e, ...)] used as a statement. *)
Inductive stmt :=
| SDoc (s : string)
| SImportFrom (module : list string) (names : list string)
| SCall (f : string) (kwargs : list (string * expr)).

Definition program := list stmt.

(** ** Parser *)

Definition parser (A : Type) := list token -> option (A * list token).

(** [parse_expr] and [parse_items] (the elements of a list display after
    its opening bracket, a trailing comma allowed) descend together;
    [fuel] bounds the nesting. *)
Fixpoint parse_expr (fuel : nat) : parser expr :=
  fun ts =>
    match fuel with
    | 0 => None
    | S fuel' =>
        match ts with
        | TStr s :: r => Some (EStr s, r)
        | TName x :: r => Some (EName x, r)
        | TOp LBrack :: r =>
            match parse_items fuel' r with
            | Some (es, r') => Some (EList es, r')
            | None => None
            end
        | _ => None
        end
    end
with parse_items (fuel : nat) : parser (list expr) :=
  fun ts =>
    match fuel with
    | 0 => None
    | S fuel' =>
        match ts with
        | TOp RBrack :: r => Some ([], r)
        | _ =>
            match parse_expr fuel' ts with
            | Some (e, TOp Comma :: r) =>
                match parse_items fuel' r with
                | Some (es, r') => Some (e :: es, r')
                | None => None
                end
            | Some (e, TOp RBrack :: r) => Some ([e], r)
            | _ => None
            end
        end
    end.

(** Keyword arguments after the opening parenthesis of a call. *)
Fixpoint parse_kwargs (fuel : nat) : parser (list (string * expr)) :=
  fun ts =>
    match fuel with
    | 0 => None
    | S fuel' =>
        match ts with
        | TOp RPar :: r => Some ([], r)
        | TName k :: TOp Assign :: r =>
            match parse_expr (S (length r)) r with
            | Some (e, TOp Comma :: r') =>
                match parse_kwargs fuel' r' with
                | Some (kw, r'') => Some ((k, e) :: kw, r'')
                | None => None
                end
            | Some (e, TOp RPar :: r') => Some ([(k, e)], r')
            | _ => None
            end
        | _ => None
        end
    end.

(** [a.b.c] *)
Fixpoint parse_dotted (fuel : nat) : parser (list string) :=
  fun ts =>
    match fuel, ts with
    | S fuel', TName x :: TOp Dot :: r =>
        match parse_dotted fuel' r with
        | Some (xs, r') => Some (x :: xs, r')
        | None => None
        end
    | S _, TName x :: r => Some ([x], r)
    | _, _ => None
    end.

(** [x, y, z] *)
Fixpoint parse_names (fuel : nat) : parser (list string) :=
  fun ts =>
    match fuel, ts with
    | S fuel', TName x :: TOp Comma :: r =>
        match parse_names fuel' r with
        | Some (xs, r') => Some (x :: xs, r')
        | None => None
        end
    | S _, TName x :: r => Some ([x], r)
    | _, _ => None
    end.

(** Words that open or belong to a compound statement, a definition or
    a jump: a script in which none of them is a token has no control flow
    and defines no function and no class. *)
Definition reserved : list string :=
  [ "def"; "class"; "lambda"; "if"; "elif"; "else"; "for"; "while"; "try";
    "except"; "finally"; "with"; "return"; "yield"; "raise"; "break";
    "continue"; "async"; "await"; "and"; "or"; "not"; "assert"; "del";
    "global"; "nonlocal"; "pass"; "is"; "in"; "as" ].

Definition mem (x : string) (l : list string) : bool :=
  existsb (String.eqb x) l.

(** One statement up to the end of its logical line. *)
Definition parse_stmt : parser stmt :=
  fun ts =>
    let n := S (length ts) in
    match ts with
    | TStr s :: r => Some (SDoc s, r)
    | TName w :: r =>
        if String.eqb w "from" then
          match parse_dotted n r with
          | Some (m, TName i :: r') =>
              if String.eqb i "import" then
                match parse_names n r' with
                | Some (xs, r'') => Some (SImportFrom m xs, r'')
                | None => None
                end
              else None
          | _ => None
          end
        else if mem w ("import" :: reserved) then None
        else
          match r with
          | TOp LPar :: r' =>
              match parse_kwargs n r' with
              | Some (kw, r'') => Some (SCall w kw, r'')
              | None => None
              end
          | _ => None
          end
    | _ => None
    end.

(** A script: statements, each ended by a line end or by the end of the
    text; blank lines are skipped. *)
Fixpoint parse_program (fuel : nat) (ts : list token) : option program :=
  match fuel with
  | 0 => None
  | S fuel' =>
      match ts with
      | [] => Some []
      | TNewline :: r => parse_program fuel' r
      | _ =>
          match parse_stmt ts with
          | Some (s, []) => Some [s]
          | Some (s, TNewline :: r) =>
              match parse_program fuel' r with
              | Some p => Some (s :: p)
              | None => None
              end
          | _ => None
          end
      end
  end.

Definition parse (s : string) : option program :=
  match tokens_of s with
  | Some ts => parse_program (S (length ts)) ts
  | None => None
  end.

(** The abstract syntax of [setup.py]. *)
Definition setup_kwargs : list (string * expr) :=
  [ ("name", EStr "result_py")
  ; ("packages", EList [EStr "result_py"])
  ; ("version", EStr "0.1.0")
  ; ("description",
     EStr "A Result type much like Rust's, featuring generics and lovely combinators.")
  ; ("author", EStr "Zack Mullaly")
  ; ("author_email", EStr "zsck@riseup.net")
  ; ("url", EStr "https://github.com/zsck/result_py")
  ; ("download_url",
     EStr "https://github.com/peterldowns/mypackage/archive/0.1.tar.gz")
  ; ("keywords",
     EList [EStr "rust"; EStr "result"; EStr "generics"; EStr "type hinting"])
  ; ("classifiers",
     EList [ EStr "Programming Language :: Python :: 3.5"
           ; EStr "Programming Language :: Python :: 3.6"
           ; EStr "Programming Language :: Python :: 3.7" ])
  ].

Definition setup_py : program :=
  [ SDoc ("setup.py" ++ nl)
  ; SImportFrom ["distutils"; "core"] ["setup"]
  ; SCall "setup" setup_kwargs
  ].

(** ** Evaluation *)

(** Values: strings, lists, and functions of imported modules, which are
    known by module and name only. *)
Inductive value :=
| VStr (s : string)
| VList (vs : list value)
| VExtern (module : list string) (name : string).

(** What a run can depend on: the name space the script starts in, and
    the modules it can import, each with the names it defines.  What a
    process is started with reaches a script through modules only (the
    command line is [argv] of module [sys]), so it is part of [modules]. *)
Record env := Env {
  globals : list (string * value);
  modules : list (list string * list (string * value))
}.

(** A call of an imported function with its evaluated keyword
    arguments: the effect a run is observed by. *)
Record call := Call {
  call_module : list string;
  call_name : string;
  call_args : list (string * value)
}.

Fixpoint lookup {A : Type} (k : string) (l : list (string * A)) : option A :=
  match l with
  | [] => None
  | (k', v) :: l' => if String.eqb k k' then Some v else lookup k l'
  end.

Fixpoint find_module (m : list string)
         (ms : list (list string * list (string * value)))
  : option (list (string * value)) :=
  match ms with
  | [] => None
  | (m', defs) :: ms' =>
      if list_eq_dec string_dec m m' then Some defs else find_module m ms'
  end.

(** What [from m import x] binds [x] to: [None] when the environment has
    no module [m] (Python's ModuleNotFoundError) or [m] defines no [x]
    (ImportError). *)
Definition provides (e : env) (m : list string) (x : string) : option value :=
  match find_module m (modules e) with
  | Some defs => lookup x defs
  | None => None
  end.

(** The bindings of [from m import x1, ..., xn], or [None] when one of
    the names cannot be imported. *)
Fixpoint import_names (e : env) (m : list string) (xs : list string)
  : option (list (string * value)) :=
  match xs with
  | [] => Some []
  | x :: xs' =>
      match provides e m x, import_names e m xs' with
      | Some v, Some r => Some ((x, v) :: r)
      | _, _ => None
      end
  end.

(** An unbound name is an error (Python's NameError). *)
Fixpoint eval (g : list (string * value)) (e : expr) : option value :=
  match e with
  | EStr s => Some (VStr s)
  | EName x => lookup x g
  | EList es =>
      option_map VList
        ((fix eval_list (es : list expr) : option (list value) :=
            match es with
            | [] => Some []
            | e :: es' =>
                match eval g e, eval_list es' with
                | Some v, Some vs => Some (v :: vs)
                | _, _ => None
                end
            end) es)
  end.

Fixpoint eval_kwargs (g : list (string * value)) (kw : list (string * expr))
  : option (list (string * value)) :=
  match kw with
  | [] => Some []
  | (k, e) :: kw' =>
      match eval g e, eval_kwargs g kw' with
      | Some v, Some r => Some ((k, v) :: r)
      | _, _ => None
      end
  end.

(** The state a run threads through the statements: the name space and
    the calls made so far, oldest first. *)
Record state := State {
  names : list (string * value);
  trace : list call
}.

(** One statement.  A docstring evaluates a constant and drops it; an
    import binds each imported name to what the environment's module
    defines it as, and fails when the module or the name is missing; a
    call needs its function name bound to a function, evaluates the
    arguments in order and is recorded (calling a string or a list is
    Python's TypeError). *)
Definition exec (e : env) (st : state) (s : stmt) : option state :=
  match s with
  | SDoc _ => Some st
  | SImportFrom m xs =>
      match import_names e m xs with
      | Some bs => Some (State (bs ++ names st) (trace st))
      | None => None
      end
  | SCall f kw =>
      match lookup f (names st) with
      | Some (VExtern m x) =>
          match eval_kwargs (names st) kw with
          | Some args => Some (State (names st) (trace st ++ [Call m x args]))
          | None => None
          end
      | _ => None
      end
  end.

Fixpoint exec_all (e : env) (st : state) (p : program) : option state :=
  match p with
  | [] => Some st
  | s :: p' =>
      match exec e st s with
      | Some st' => exec_all e st' p'
      | None => None
      end
  end.

Definition run (e : env) (p : program) : option (list call) :=
  option_map trace (exec_all e (State (globals e) []) p).

(** The manifest: the keyword arguments of the one call of distutils'
    [setup] a run of [setup.py] makes. *)
Definition manifest_of (r : option (list call)) : option (list (string * value)) :=
  match r with
  | Some [Call m f args] =>
      if list_eq_dec string_dec m ["distutils"; "core"] then
        if String.eqb f "setup" then Some args else None
      else None
  | _ => None
  end.

(** A newly started interpreter of the Python versions the classifiers
    name, whose standard library has [distutils.core] with its function
    [setup]; and one in which no module can be imported. *)
Definition fresh_env : env :=
  Env [] [(["distutils"; "core"],
           [("setup", VExtern ["distutils"; "core"] "setup")])].


Definition manifest : option (list (string * value)) :=
  match parse source with
  | Some p => manifest_of (run fresh_env p)
  | None => None
  end.

Definition field (k : string) : option value :=
  match manifest with
  | Some m => lookup k m
  | None => None
  end.

(** ** Static properties of scripts *)

(** The calls written in a script, in order. *)
Fixpoint call_sites (p : program) : list (string * list (string * expr)) :=
  match p with
  | [] => []
  | SCall f kw :: p' => (f, kw) :: call_sites p'
  | _ :: p' => call_sites p'
  end.

(** [closed_expr b e]: every name [e] mentions is in [b]. *)
Fixpoint closed_expr (b : list string) (e : expr) : bool :=
  match e with
  | EStr _ => true
  | EName x => mem x b
  | EList es => forallb (closed_expr b) es
  end.


(** [closed b p]: every name [p] uses, as a function or in an argument,
    is in [b] or bound by an import earlier in [p]. *)
Fixpoint closed (b : list string) (p : program) : bool :=
  match p with
  | [] => true
  | SDoc _ :: p' => closed b p'
  | SImportFrom _ xs :: p' => closed (xs ++ b) p'
  | SCall f kw :: p' =>
      mem f b && forallb (fun ke => closed_expr b (snd ke)) kw && closed b p'
  end.


Definition is_definition (t : token) : bool :=
  match t with
  | TName x => mem x ["def"; "class"; "lambda"]
  | _ => false
  end.

(** The range of offsets of the token that follows [k =], the value of
    the keyword argument [k], when it is a single token. *)
Fixpoint value_span (k : string) (ts : list ptoken) : option (token * nat * nat) :=
  match ts with
  | PTok (TName x) _ _ :: ((PTok (TOp Assign) _ _ :: PTok t a b :: _) as r) =>
      if String.eqb x k then Some (t, a, b) else value_span k r
  | _ :: r => value_span k r
  | [] => None
  end.

(** ** Notions the specification states the manifest fields by *)

(** The field set the specification lists. *)
Definition spec_fields : list string :=
  [ "name"; "packages"; "version"; "description"; "author"; "author_email";
    "url"; "download_url"; "keywords"; "classifiers" ].

(** Value of a non-empty string of decimal digits. *)
Definition decimal (s : string) : option nat :=
  match chars s with
  | [] => None
  | cs =>
      if forallb is_digit cs
      then Some (fold_left (fun n c => 10 * n + (nat_of_ascii c - 48)) cs 0)
      else None
  end.

Fixpoint all_some {A : Type} (l : list (option A)) : option (list A) :=
  match l with
  | [] => Some []
  | Some a :: l' => option_map (cons a) (all_some l')
  | None :: _ => None
  end.

(** A version identifier as a dot-separated sequence of decimal
    components; [None] when a component is empty or not numeric. *)
Definition version_components (s : string) : option (list nat) :=
  all_some (map decimal (split_on "." s)).

(** Owner and repository of a [https://github.com/owner/repo/...] URL. *)
Definition github_repo (u : string) : option (string * string) :=
  match split_on "/" u with
  | scheme :: gap :: host :: owner :: repo :: _ =>
      if String.eqb scheme "https:" && String.eqb gap EmptyString
         && String.eqb host "github.com"
      then Some (owner, repo) else None
  | _ => None
  end.

Definition strip_suffix (suf s : string) : option string :=
  let n := String.length s - String.length suf in
  if String.eqb (substring n (String.length suf) s) suf
     && (String.length suf <=? String.length s)%nat
  then Some (substring 0 n s) else None.

(** Version component of a [.../archive/<version>.tar.gz] URL. *)
Definition archive_version (u : string) : option string :=
  match rev (split_on "/" u) with
  | file :: dir :: _ =>
      if String.eqb dir "archive" then strip_suffix ".tar.gz" file else None
  | _ => None
  end.

(** The trove classifier of Python 3.[minor], [minor] a digit. *)
Definition python_classifier (minor : nat) : string :=
  "Programming Language :: Python :: 3."
    ++ String (ascii_of_nat (48 + minor)) EmptyString.

(** The leading component of a classifier, its kind. *)
Definition classifier_kind (c : string) : string :=
  match split_on ":" c with
  | k :: _ =>
      match strip_suffix " " k with
      | Some k' => k'
      | None => k
      end
  | [] => EmptyString
  end.

Definition token_names (ts : list token) : list string :=
  flat_map (fun t => match t with TName x => [x] | _ => [] end) ts.

Definition same_repository (u d : string) : bool :=
  match github_repo u, github_repo d with
  | Some (o1, r1), Some (o2, r2) => String.eqb o1 o2 && String.eqb r1 r2
  | _, _ => false
  end.

Definition archive_matches (d v : string) : bool :=
  match archive_version d with
  | Some w => String.eqb w v
  | None => false
  end.

Definition str_of (v : value) : option string :=
  match v with
  | VStr s => Some s
  | _ => None
  end.

Definition strs_of (v : value) : option (list string) :=
  match v with
  | VList vs => all_some (map str_of vs)
  | _ => None
  end.

(** ** Further notions for the rest of the script *)

(** The names a script binds by [from m import x, ...], with the module
    each comes from, in order. *)
Fixpoint imported (p : program) : list (list string * string) :=
  match p with
  | [] => []
  | SImportFrom m xs :: p' => map (fun x => (m, x)) xs ++ imported p'
  | _ :: p' => imported p'
  end.


(** The values of the ten keyword arguments of the call, as written on
    lines 7 to 20. *)
Definition setup_values : list (string * value) :=
  [ ("name", VStr "result_py")
  ; ("packages", VList [VStr "result_py"])
  ; ("version", VStr "0.1.0")
  ; ("description",
     VStr "A Result type much like Rust's, featuring generics and lovely combinators.")
  ; ("author", VStr "Zack Mullaly")
  ; ("author_email", VStr "zsck@riseup.net")
  ; ("url", VStr "https://github.com/zsck/result_py")
  ; ("download_url",
     VStr "https://github.com/peterldowns/mypackage/archive/0.1.tar.gz")
  ; ("keywords",
     VList [VStr "rust"; VStr "result"; VStr "generics"; VStr "type hinting"])
  ; ("classifiers",
     VList [ VStr "Programming Language :: Python :: 3.5"
           ; VStr "Programming Language :: Python :: 3.6"
           ; VStr "Programming Language :: Python :: 3.7" ])
  ].


(** The shape of a field value: a string, a list of strings, or
    anything else. *)
Inductive shape := Str | StrList | Other.

Definition shape_of (v : value) : shape :=
  match v with
  | VStr _ => Str
  | VList vs =>
      if forallb (fun x => match x with VStr _ => true | _ => false end) vs
      then StrList else Other
  | VExtern _ _ => Other
  end.

(** Every string of a value, the value itself or its elements. *)
Definition strings_of (v : value) : list string :=
  match v with
  | VStr s => [s]
  | VList vs => flat_map (fun x => match x with VStr s => [s] | _ => [] end) vs
  | VExtern _ _ => []
  end.

Definition nonempty (s : string) : bool := negb (String.eqb s EmptyString).

(** A mail address [local@domain]: one at sign, a non-empty local part,
    a domain of at least two non-empty dot-separated labels, no blanks. *)
Definition valid_email (s : string) : bool :=
  match split_on "@" s with
  | [loc; dom] =>
      nonempty loc
      && (2 <=? length (split_on "." dom))%nat
      && forallb nonempty (split_on "." dom)
      && negb (existsb is_blank (chars s))
  | _ => false
  end.


(** * Properties *)

(** ** Induction on nested expressions *)


(** ** Association lists *)



Lemma lookup_bound {A : Type} (k : string) (l : list (string * A)) :
  lookup k l <> None <-> In k (map fst l).
Proof.
  induction l as [| [k' v] l IH]; simpl.
  - split; [intros H; now elim H | intros []].
  - destruct (String.eqb k k') eqn:E.
    + apply String.eqb_eq in E. subst. split; [now left | discriminate].
    + apply String.eqb_neq in E. rewrite IH. split.
      * now right.
      * intros [H | H]; [now elim E | exact H].
Qed.

(** ** A closed script depends on the environment through its imports only *)









(** ** Version identifiers *)

Lemma all_some_length {A : Type} (l : list (option A)) (r : list A) :
  all_some l = Some r -> length r = length l.
Proof.
  revert r. induction l as [| [a |] l IH]; simpl; intros r H.
  - injection H as <-. reflexivity.
  - destruct (all_some l) as [r' |]; simpl in H; [| discriminate].
    injection H as <-. simpl. f_equal. apply IH. reflexivity.
  - discriminate.
Qed.

Lemma all_some_Forall {A : Type} (l : list (option A)) (r : list A) :
  all_some l = Some r -> Forall (fun o => o <> None) l.
Proof.
  revert r. induction l as [| [a |] l IH]; simpl; intros r H.
  - constructor.
  - destruct (all_some l) as [r' |]; simpl in H; [| discriminate].
    constructor; [discriminate | apply (IH r'); reflexivity].
  - discriminate.
Qed.

Lemma split_chars_nonempty (sep : ascii) (cs : list ascii) :
  split_chars sep cs <> [].
Proof.
  destruct cs as [| c cs]; simpl.
  - discriminate.
  - destruct (Ascii.eqb c sep); [discriminate |].
    destruct (split_chars sep cs); discriminate.
Qed.

Lemma decimal_digits (s : string) (n : nat) :
  decimal s = Some n -> chars s <> [] /\ forallb is_digit (chars s) = true.
Proof.
  unfold decimal. destruct (chars s) as [| c cs] eqn:E.
  - discriminate.
  - destruct (forallb is_digit (c :: cs)) eqn:D; [| discriminate].
    intros _. split; [discriminate | reflexivity].
Qed.

(** What [version_components] accepts: at least one component, one per
    dot-separated piece, every piece a non-empty string of digits. *)
Lemma version_components_sound (s : string) (ns : list nat) :
  version_components s = Some ns ->
  ns <> [] /\
  length ns = length (split_on "." s) /\
  Forall (fun piece => chars piece <> [] /\ forallb is_digit (chars piece) = true)
         (split_on "." s).
Proof.
  unfold version_components. intros H.
  pose proof (all_some_length _ _ H) as Hlen.
  pose proof (all_some_Forall _ _ H) as Hall.
  rewrite length_map in Hlen.
  split; [| split].
  - intros ->. simpl in Hlen. unfold split_on in Hlen.
    rewrite length_map in Hlen.
    pose proof (split_chars_nonempty "." (chars s)) as Hne.
    destruct (split_chars "." (chars s)); [now elim Hne | discriminate].
  - exact Hlen.
  - rewrite Forall_map in Hall.
    eapply Forall_impl; [| exact Hall].
    intros piece Hp. simpl in Hp.
    destruct (decimal piece) as [n |] eqn:E; [| now elim Hp].
    apply (decimal_digits piece n E).
Qed.

(** ** From the text to the manifest *)

Lemma splitlines_source : splitlines source = source_lines.
Proof. vm_compute. reflexivity. Qed.

Lemma parse_source : parse source = Some setup_py.
Proof. vm_compute. reflexivity. Qed.


(** What a run of the script does, by what the environment's
    [distutils.core] defines [setup] as. *)
Lemma run_setup_py (e : env) :
  run e setup_py =
  match provides e ["distutils"; "core"] "setup" with
  | Some (VExtern m f) => Some [Call m f setup_values]
  | _ => None
  end.
Proof.
  unfold run, setup_py. cbn [exec_all exec import_names].
  destruct (provides e ["distutils"; "core"] "setup") as [[s | vs | m f] |];
    reflexivity.
Qed.

Lemma manifest_fields :
  exists m, manifest = Some m /\ map fst m = spec_fields.
Proof.
  unfold manifest. rewrite parse_source, run_setup_py.
  eexists. split; reflexivity.
Qed.

Lemma spec_fields_NoDup : NoDup spec_fields.
Proof.
  pose proof (NoDup_nodup string_dec spec_fields) as H.
  vm_compute in H. exact H.
Qed.

(** ** The claims *)

(** C1. The script contains one call, of [setup], and the keyword
    arguments of that call are exactly the ten fields the specification
    lists (name, packages, version, description, author, author_email,
    url, download_url, keywords, classifiers): each is passed, once, and
    no other keyword is. *)
Theorem manifest_field_set :
  option_map call_sites (parse source) = Some [("setup", setup_kwargs)] /\
  map fst setup_kwargs = spec_fields /\
  option_map (map fst) manifest = Some spec_fields /\
  NoDup spec_fields /\
  (forall k : string, field k <> None <-> In k spec_fields).
Proof.
  split; [rewrite parse_source; reflexivity |].
  split; [reflexivity |].
  destruct manifest_fields as [m [Hm Hk]].
  split; [rewrite Hm; simpl; rewrite Hk; reflexivity |].
  split; [exact spec_fields_NoDup |].
  intros k. unfold field. rewrite Hm, <- Hk. apply lookup_bound.
Qed.

(** C2. The claim (download_url names the repository of url and an
    archive of the version in the version field) does not hold of the
    manifest: url names zsck/result_py and version is 0.1.0, while
    download_url names an archive 0.1 of peterldowns/mypackage. *)
Theorem download_url_mismatch :
  field "url" = Some (VStr "https://github.com/zsck/result_py") /\
  field "download_url" =
    Some (VStr "https://github.com/peterldowns/mypackage/archive/0.1.tar.gz") /\
  field "version" = Some (VStr "0.1.0") /\
  github_repo "https://github.com/zsck/result_py" = Some ("zsck", "result_py") /\
  github_repo "https://github.com/peterldowns/mypackage/archive/0.1.tar.gz"
    = Some ("peterldowns", "mypackage") /\
  archive_version "https://github.com/peterldowns/mypackage/archive/0.1.tar.gz"
    = Some "0.1" /\
  same_repository "https://github.com/zsck/result_py"
    "https://github.com/peterldowns/mypackage/archive/0.1.tar.gz" = false /\
  archive_matches "https://github.com/peterldowns/mypackage/archive/0.1.tar.gz"
    "0.1.0" = false.
Proof. vm_compute. repeat split; reflexivity. Qed.

(** C3. The value of the version field, 0.1.0, is a valid version
    identifier: a non-empty dot-separated sequence of decimal numeric
    components, here the three components 0, 1 and 0. *)
Theorem version_is_valid :
  field "version" = Some (VStr "0.1.0") /\
  version_components "0.1.0" = Some [0; 1; 0] /\
  Forall (fun piece => chars piece <> [] /\ forallb is_digit (chars piece) = true)
         (split_on "." "0.1.0").
Proof.
  split; [vm_compute; reflexivity |].
  assert (H : version_components "0.1.0" = Some [0; 1; 0])
    by (vm_compute; reflexivity).
  split; [exact H |].
  apply (version_components_sound _ _ H).
Qed.

(** C4. The source holds no implementation: it parses to a docstring, an
    import and one call, no token of it is [def], [class] or [lambda],
    and the word Result occurs in the text once, at offset 148, inside
    the string literal (offsets 145 to 222) that is the value of the
    description argument; no name token is Result. *)
Theorem no_definitions_Result_only_described :
  parse source = Some setup_py /\
  option_map (existsb is_definition) (tokens_of source) = Some false /\
  option_map (fun ts => mem "Result" (token_names ts)) (tokens_of source)
    = Some false /\
  occurrences "Result" source = [148] /\
  option_map (value_span "description") (tokenize source) =
    Some (Some (TStr "A Result type much like Rust's, featuring generics and lovely combinators.",
                145, 222)) /\
  145 < 148 /\ 148 + String.length "Result" < 222 /\
  substring 148 6 source = "Result".
Proof.
  split; [exact parse_source |].
  repeat split; try (vm_compute; reflexivity); vm_compute; lia.
Qed.

(** C5, as stated: the text does not consist of 20 lines. *)
Lemma source_not_20_lines : length (splitlines source) <> 20.
Proof. rewrite splitlines_source. vm_compute. discriminate. Qed.

(** C5, amended. The text consists of 21 lines: 20 line terminators, and
    a last line, the closing parenthesis of the call, that has none.  All
    of it is the packaging script: a docstring, the import of [setup] and
    the call of [setup]. *)
Theorem source_is_21_lines :
  splitlines source = source_lines /\
  length (splitlines source) = 21 /\
  count_char LF source = 20 /\
  last (splitlines source) EmptyString = ")" /\
  parse source = Some setup_py.
Proof.
  rewrite splitlines_source.
  repeat split; try exact parse_source; vm_compute; reflexivity.
Qed.




(** C7. The packages field is a list of one entry, and that entry is the
    value of the name field, result_py, character for character. *)
Theorem packages_is_name :
  field "name" = Some (VStr "result_py") /\
  field "packages" = Some (VList [VStr "result_py"]) /\
  (exists n : string,
      field "name" = Some (VStr n) /\ field "packages" = Some (VList [VStr n])).
Proof.
  assert (Hn : field "name" = Some (VStr "result_py")) by (vm_compute; reflexivity).
  assert (Hp : field "packages" = Some (VList [VStr "result_py"]))
    by (vm_compute; reflexivity).
  split; [exact Hn |]. split; [exact Hp |].
  exists "result_py". split; assumption.
Qed.

(** C8. The classifiers field is a list of three strings, the
    classifiers of Python 3.5, 3.6 and 3.7 in this order; the kind of
    each is Programming Language, so none is a license, development
    status or audience classifier. *)
Theorem classifiers_python_35_36_37 :
  field "classifiers" = Some (VList (map (fun x => VStr (python_classifier x)) [5; 6; 7])) /\
  option_map (@length string) (match field "classifiers" with
                               | Some v => strs_of v
                               | None => None
                               end) = Some 3 /\
  option_map (map classifier_kind) (match field "classifiers" with
                                    | Some v => strs_of v
                                    | None => None
                                    end)
    = Some ["Programming Language"; "Programming Language"; "Programming Language"].
Proof. repeat split; vm_compute; reflexivity. Qed.

(** C9. The keywords field is the list of the four strings rust, result,
    generics and type hinting, in this order. *)
Theorem keywords_are_four :
  field "keywords" =
    Some (VList [VStr "rust"; VStr "result"; VStr "generics"; VStr "type hinting"]).
Proof. vm_compute. reflexivity. Qed.

(** ** The rest of the script *)

(** X1. The function the script calls is the one it imports: its only
    import is [setup] of distutils.core and it uses no other name.  In
    any environment, when distutils.core defines [setup] as a function a
    run makes exactly one call, of that function, with the ten values
    written in the script (also when the environment already binds the
    name [setup]); when the module or the name is missing, or [setup] is
    no function there, the run fails and makes no call. *)
Theorem setup_is_the_imported_function (e : env) :
  option_map imported (parse source) = Some [(["distutils"; "core"], "setup")] /\
  option_map (closed []) (parse source) = Some true /\
  run e setup_py =
    match provides e ["distutils"; "core"] "setup" with
    | Some (VExtern m f) => Some [Call m f setup_values]
    | _ => None
    end.
Proof.
  split; [rewrite parse_source; reflexivity |].
  split; [rewrite parse_source; reflexivity |].
  apply run_setup_py.
Qed.

(** X2. The manifest has the shapes the packaging tool expects: name,
    version, description, author, author_email, url and download_url are
    strings, packages, keywords and classifiers are lists of strings, and
    no string among them, element of a list included, is empty. *)
Theorem manifest_field_shapes :
  option_map (map (fun kv => (fst kv, shape_of (snd kv)))) manifest =
    Some [ ("name", Str); ("packages", StrList); ("version", Str);
           ("description", Str); ("author", Str); ("author_email", Str);
           ("url", Str); ("download_url", Str); ("keywords", StrList);
           ("classifiers", StrList) ] /\
  option_map (fun m => forallb nonempty (flat_map (fun kv => strings_of (snd kv)) m))
             manifest = Some true.
Proof. split; vm_compute; reflexivity. Qed.

(** X3. The url field is an https GitHub URL of the repository
    zsck/result_py, and the repository it names is the package: its name
    is the value of the name field and the one entry of packages. *)
Theorem url_names_the_package :
  exists u n : string,
    field "url" = Some (VStr u) /\
    field "name" = Some (VStr n) /\
    field "packages" = Some (VList [VStr n]) /\
    github_repo u = Some ("zsck", n).
Proof.
  exists "https://github.com/zsck/result_py", "result_py".
  repeat split; vm_compute; reflexivity.
Qed.

(** X4. The author_email field is a well-formed mail address: one at
    sign, the local part zsck, the domain riseup.net of two non-empty
    labels, no blank. *)
Theorem author_email_well_formed :
  exists a : string,
    field "author_email" = Some (VStr a) /\
    valid_email a = true /\
    split_on "@" a = ["zsck"; "riseup.net"].
Proof.
  exists "zsck@riseup.net". repeat split; vm_compute; reflexivity.
Qed.

(** X5. The description is written in the source with an escaped quote
    (the 77 characters at offset 145, backslash included), and the value
    passed to [setup] is the decoded text: 74 characters on one line,
    with the apostrophe and without any backslash. *)
Theorem description_escape_decoded :
  substring 145 77 source =
    "'A Result type much like Rust\'s, featuring generics and lovely combinators.'" /\
  count_char backslash (substring 145 77 source) = 1 /\
  exists d : string,
    field "description" = Some (VStr d) /\
    d = "A Result type much like Rust's, featuring generics and lovely combinators." /\
    String.length d = 74 /\
    count_char backslash d = 0 /\
    count_char "'" d = 1 /\
    count_char LF d = 0.
Proof.
  split; [vm_compute; reflexivity |].
  split; [vm_compute; reflexivity |].
  eexists. split; [vm_compute; reflexivity |].
  repeat split; vm_compute; reflexivity.
Qed.
